(** * Commit times of the Mutagen repository

    A model of [examples/projects/tunnels/data-science/analysis/example.py]:
    the function [load_commit_times] asks the GitHub API for the recent
    commits of mutagen-io/mutagen, takes the author date of each one and
    returns the dates as a Pandas series of dtype [datetime64].

    The script is three statements long and rests on two libraries that are
    not part of the repository.  Python's own part (iteration, subscripts,
    the list comprehension, exceptions) is modelled here as Python defines
    it.  The two library functions whose results depend on data that the
    script never looks at, the JSON decoder behind [Response.json()] and the
    cast of one value to [datetime64] behind [Series.astype], are variables
    of the section [Loader]: the statements below hold for whatever these
    two functions compute, and where one is about the value of a timestamp
    it says what it takes the cast to do ([casts_utc_instants]).  The module
    [Reference] gives one executable instance of both, on which the
    statements are run. *)

From Stdlib Require Import ZArith String Ascii PrimFloat.
From stdpp Require Import base strings gmap list.

#[local] Open Scope Z_scope.
#[local] Open Scope string_scope.

(** ** Python values

    What [json.loads] can return: [None], [bool], [int], [float], [str],
    [list], and [dict] with [str] keys. *)

#[warnings="-register-all"]
Inductive pyobj : Type :=
| PyNone
| PyBool (b : bool)
| PyInt (n : Z)
| PyFloat (x : float)
| PyStr (s : string)
| PyList (l : list pyobj)
| PyDict (d : gmap string pyobj).

(** ** Exceptions and results *)

(** The exceptions the three statements can raise, by the place that raises
    them. *)
Inductive exception : Type :=
| RequestException        (* requests.get: no response was obtained *)
| JSONDecodeError         (* Response.json(): the body is not JSON *)
| TypeError               (* a value that cannot be iterated, or subscripted by a str *)
| KeyError (key : string) (* a dict without the key *)
| ParserError.            (* astype('datetime64'): a value that is no timestamp *)

(** The failure kinds of the specification (section 7). *)
Inductive failure : Type :=
| NetworkError
| HttpStatusError
| DecodeError
| SchemaError
| TimestampParseError.

Definition failure_of (e : exception) : failure :=
  match e with
  | RequestException => NetworkError
  | JSONDecodeError => DecodeError
  | TypeError | KeyError _ => SchemaError
  | ParserError => TimestampParseError
  end.

Inductive result (A : Type) : Type :=
| Ok (a : A)
| Raise (e : exception).
Arguments Ok {A} a.
Arguments Raise {A} e.

#[global] Instance result_ret : MRet result := λ A a, Ok a.
#[global] Instance result_bind : MBind result := λ A B k r,
  match r with
  | Ok a => k a
  | Raise e => Raise e
  end.

(** ** Python's part *)

(** [o[key]] for a [str] key: a dict is looked up and raises [KeyError]
    without the key; a list, a str and every other value raise [TypeError]
    (list and str indices must be integers, the others have no subscript). *)
Definition getitem (o : pyobj) (key : string) : result pyobj :=
  match o with
  | PyDict d =>
      match d !! key with
      | Some v => Ok v
      | None => Raise (KeyError key)
      end
  | _ => Raise TypeError
  end.

(** The items that [for c in o] goes through: the elements of a list, the
    keys of a dict, the characters of a str; the other values are not
    iterable. *)
Definition iter (o : pyobj) : result (list pyobj) :=
  match o with
  | PyList l => Ok l
  | PyDict d => Ok ((λ kv, PyStr kv.1) <$> map_to_list d)
  | PyStr s => Ok ((λ c, PyStr (String c EmptyString)) <$> list_ascii_of_string s)
  | _ => Raise TypeError
  end.

(** [[f(c) for c in o]]: the items in order, stopping at the first
    exception. *)
Definition comprehension (f : pyobj → result pyobj) (o : pyobj) : result (list pyobj) :=
  items ← iter o; mapM f items.

(** ** The network and the rest of the environment *)

Inductive http_method : Type := GET | POST | PUT | DELETE.

Record request : Type := {
  method : http_method;
  url : string;
  params : list (string * string);
  headers : list (string * string);
  data : option string
}.

(** Of a response the script can reach the status code and the body. *)
Record Response : Type := {
  status_code : Z;
  text : string
}.

Inductive outcome : Type :=
| Unreachable
| Responds (r : Response).

(** The environment: [network n q] is what the network does with the request
    [q] when [n] requests went out before it, [sent] lists the requests that
    went out, oldest first; standard output and the files are there to say
    that they are left alone. *)
Record world : Type := {
  network : nat → request → outcome;
  sent : list request;
  stdout : list string;
  files : gmap string string
}.

(** Statements run in a world and may raise. *)
Definition M (A : Type) : Type := world → result A * world.

#[global] Instance M_ret : MRet M := λ A a w, (Ok a, w).
#[global] Instance M_bind : MBind M := λ A B k m w,
  match m w with
  | (Ok a, w') => k a w'
  | (Raise e, w') => (Raise e, w')
  end.

(** A computation that does not touch the world. *)
Definition lift {A : Type} (r : result A) : M A := λ w, (r, w).

(** ** requests *)

(** [requests.get(url)] with no further argument: one GET request for [url]
    that carries nothing of the caller's. *)
Definition get_request (u : string) : request :=
  {| method := GET; url := u; params := []; headers := []; data := None |}.

Definition requests_get (u : string) : M Response := λ w,
  let q := get_request u in
  let w' := {| network := network w; sent := sent w ++ [q];
               stdout := stdout w; files := files w |} in
  match network w (length (sent w)) q with
  | Unreachable => (Raise RequestException, w')
  | Responds r => (Ok r, w')
  end.

(** ** pandas *)

(** A value of dtype [datetime64[ns]]: not-a-time, or a count of nanoseconds
    since 1970-01-01T00:00:00.  It carries no time zone. *)
Inductive datetime64 : Type :=
| NaT
| Stamp (ns : Z).

Record Series (A : Type) : Type := {
  index : list nat;
  values : list A
}.
Arguments index {A} s.
Arguments values {A} s.

(** [pd.Series(data)] with no index given: the positions [0 .. len-1]. *)
Definition pd_Series {A : Type} (data : list A) : Series A :=
  {| index := seq 0 (length data); values := data |}.

(** * The loader *)

(** _COMMITS_URL is the GitHub API endpoint with recent Mutagen commit data. *)
Definition _COMMITS_URL : string :=
  "https://api.github.com/repos/mutagen-io/mutagen/commits".

Section Loader.

(** [json.loads], as [Response.json()] applies it to the body. *)
Variable json_loads : string → option pyobj.

(** The cast of one value to [datetime64]. *)
Variable to_datetime64 : pyobj → option datetime64.

(** [response.json()]: the status code is not looked at. *)
Definition Response_json (r : Response) : result pyobj :=
  match json_loads (text r) with
  | Some o => Ok o
  | None => Raise JSONDecodeError
  end.

(** The cast of one value, as a step that may raise. *)
Definition cast (o : pyobj) : result datetime64 :=
  match to_datetime64 o with
  | Some t => Ok t
  | None => Raise ParserError
  end.

(** [s.astype('datetime64')]: every value is cast, the index is kept. *)
Definition astype_datetime64 (s : Series pyobj) : result (Series datetime64) :=
  vs ← mapM cast (values s);
  mret {| index := index s; values := vs |}.

(** [c['commit']['author']['date']] *)
Definition commit_date (c : pyobj) : result pyobj :=
  commit ← getitem c "commit";
  author ← getitem commit "author";
  getitem author "date".

(** Loads recent Mutagen commit times as a Pandas Series. *)
Definition load_commit_times : M (Series datetime64) :=
  (* Request commit data. *)
  response ← requests_get _COMMITS_URL;
  commits ← lift (Response_json response);
  (* Extract commit times. *)
  times ← lift (comprehension commit_date commits);
  (* Convert times to a Pandas series. *)
  lift (astype_datetime64 (pd_Series times)).

(** What the statements after the request make of a response. *)
Definition times_of (r : Response) : result (Series datetime64) :=
  commits ← Response_json r;
  times ← comprehension commit_date commits;
  astype_datetime64 (pd_Series times).

(** What a call returns, and the world it leaves. *)
Definition returned (w : world) : result (Series datetime64) :=
  (load_commit_times w).1.

Definition after (w : world) : world :=
  (load_commit_times w).2.

End Loader.

(** ** Notions of the specification *)

(** What the network does with the request of the next call. *)
Definition api_response (w : world) : outcome :=
  network w (length (sent w)) (get_request _COMMITS_URL).

Definition dict_of (o : pyobj) : option (gmap string pyobj) :=
  match o with
  | PyDict d => Some d
  | _ => None
  end.

(** The value at the nested path [commit.author.date] of a commit record,
    if the record has one. *)
Definition at_path (c : pyobj) : option pyobj :=
  d ← dict_of c; commit ← d !! "commit";
  d1 ← dict_of commit; author ← d1 !! "author";
  d2 ← dict_of author; d2 !! "date".



(** * ISO 8601 instants

    The commit dates of the GitHub API are UTC instants written
    [YYYY-MM-DDTHH:MM:SSZ]. *)

Module ISO8601.

#[local] Open Scope Z_scope.

(** A wall-clock reading of the proleptic Gregorian calendar. *)
Record civil : Type := {
  year : Z; month : Z; day : Z;
  hour : Z; minute : Z; second : Z
}.

Definition is_leap (y : Z) : bool :=
  (y mod 4 =? 0) && (negb (y mod 100 =? 0) || (y mod 400 =? 0)).

Definition days_in_month (y m : Z) : Z :=
  if m =? 2 then (if is_leap y then 29 else 28)
  else if (m =? 4) || (m =? 6) || (m =? 9) || (m =? 11) then 30
  else 31.

Definition valid (t : civil) : bool :=
  (1 <=? month t) && (month t <=? 12) &&
  (1 <=? day t) && (day t <=? days_in_month (year t) (month t)) &&
  (0 <=? hour t) && (hour t <=? 23) &&
  (0 <=? minute t) && (minute t <=? 59) &&
  (0 <=? second t) && (second t <=? 59).

(** Days from 1970-01-01 to the given date, counting years from March. *)
Definition days_from_civil (y m d : Z) : Z :=
  let y' := if m <=? 2 then y - 1 else y in
  let era := y' / 400 in
  let yoe := y' - era * 400 in
  let doy := (153 * (if 2 <? m then m - 3 else m + 9) + 2) / 5 + d - 1 in
  let doe := yoe * 365 + yoe / 4 - yoe / 100 + doy in
  era * 146097 + doe - 719468.

(** Nanoseconds from 1970-01-01T00:00:00 to the reading, with no zone
    applied: the value of a naive [datetime64[ns]] that shows [t]. *)
Definition naive_ns (t : civil) : Z :=
  (((days_from_civil (year t) (month t) (day t) * 24 + hour t) * 60
    + minute t) * 60 + second t) * 1000000000.

(** [datetime64[ns]] is a 64-bit count whose least value stands for NaT. *)
Definition in_bounds (ns : Z) : bool :=
  (- 2 ^ 63 <? ns) && (ns <? 2 ^ 63).

Definition digit (c : ascii) : option Z :=
  let n := Z.of_N (N_of_ascii c) - 48 in
  if (0 <=? n) && (n <=? 9) then Some n else None.

(** The number that [n] decimal digits from position [i] of [s] write. *)
Fixpoint field (s : string) (i n : nat) (acc : Z) : option Z :=
  match n with
  | O => Some acc
  | S n' =>
      c ← String.get i s;
      d ← digit c;
      field s (S i) n' (10 * acc + d)
  end.

Definition at_ (s : string) (i : nat) (c : ascii) : bool :=
  match String.get i s with
  | Some c' => Ascii.eqb c c'
  | None => false
  end.

(** The reading that a string of the form [YYYY-MM-DDTHH:MM:SSZ] shows. *)
Definition parse_utc (s : string) : option civil :=
  if (String.length s =? 20)%nat
     && at_ s 4 "-" && at_ s 7 "-" && at_ s 10 "T"
     && at_ s 13 ":" && at_ s 16 ":" && at_ s 19 "Z"
  then
    y ← field s 0 4 0; m ← field s 5 2 0; d ← field s 8 2 0;
    h ← field s 11 2 0; mi ← field s 14 2 0; se ← field s 17 2 0;
    let t := {| year := y; month := m; day := d;
                hour := h; minute := mi; second := se |} in
    if valid t then Some t else None
  else None.

(** The instant of such a string as a [datetime64[ns]] count: the UTC
    reading with the zone designator dropped. *)
Definition utc_stamp (s : string) : option Z :=
  t ← parse_utc s;
  if in_bounds (naive_ns t) then Some (naive_ns t) else None.







End ISO8601.


(** * A reference instance of the two library functions *)

Module Reference.

#[local] Open Scope Z_scope.

Definition dquote : ascii := "034".
Definition backslash : ascii := "092".

Definition is_ws (c : ascii) : bool :=
  Ascii.eqb c " " || Ascii.eqb c "009" || Ascii.eqb c "010" || Ascii.eqb c "013".

Fixpoint skip_ws (l : list ascii) : list ascii :=
  match l with
  | c :: l' => if is_ws c then skip_ws l' else l
  | [] => []
  end.

(** [l] without the prefix [lit]. *)
Fixpoint expect (lit l : list ascii) : option (list ascii) :=
  match lit, l with
  | [], _ => Some l
  | a :: lit', b :: l' => if Ascii.eqb a b then expect lit' l' else None
  | _ :: _, [] => None
  end.

(** The digits at the head of [l]. *)
Fixpoint digits (l : list ascii) (acc : Z) : Z * list ascii :=
  match l with
  | c :: l' =>
      match ISO8601.digit c with
      | Some d => digits l' (10 * acc + d)
      | None => (acc, l)
      end
  | [] => (acc, [])
  end.

(** An integer: [0], or a digit from 1 to 9 and more digits.  A fraction
    or an exponent makes a float, which this decoder does not read. *)
Definition natural (l : list ascii) : option (Z * list ascii) :=
  match l with
  | c :: l' =>
      d ← ISO8601.digit c;
      let '(n, rest) := if d =? 0 then (0, l') else digits l' d in
      match rest with
      | c' :: _ =>
          if Ascii.eqb c' "." || Ascii.eqb c' "e" || Ascii.eqb c' "E"
          then None else Some (n, rest)
      | [] => Some (n, rest)
      end
  | [] => None
  end.

Definition unescape (c : ascii) : option ascii :=
  if Ascii.eqb c dquote then Some dquote
  else if Ascii.eqb c backslash then Some backslash
  else if Ascii.eqb c "/" then Some "/"%char
  else if Ascii.eqb c "b" then Some "008"%char
  else if Ascii.eqb c "f" then Some "012"%char
  else if Ascii.eqb c "n" then Some "010"%char
  else if Ascii.eqb c "r" then Some "013"%char
  else if Ascii.eqb c "t" then Some "009"%char
  else None.

(** The string that ends at the next unescaped quote; [acc] holds its
    characters so far, last first.  Control characters and [\u] escapes
    are not read. *)
Fixpoint str (l : list ascii) (acc : list ascii) : option (string * list ascii) :=
  match l with
  | [] => None
  | c :: l' =>
      if Ascii.eqb c dquote then Some (string_of_list_ascii (reverse acc), l')
      else if Ascii.eqb c backslash then
        match l' with
        | e :: l'' => c' ← unescape e; str l'' (c' :: acc)
        | [] => None
        end
      else if (N_of_ascii c <? 32)%N then None
      else str l' (c :: acc)
  end.

Fixpoint value (fuel : nat) (l : list ascii) : option (pyobj * list ascii) :=
  match fuel with
  | O => None
  | S fuel =>
      match skip_ws l with
      | [] => None
      | c :: l1 =>
          if Ascii.eqb c "[" then
            match skip_ws l1 with
            | c' :: l2 =>
                if Ascii.eqb c' "]" then Some (PyList [], l2)
                else elements fuel l1 []
            | [] => None
            end
          else if Ascii.eqb c "{" then
            match skip_ws l1 with
            | c' :: l2 =>
                if Ascii.eqb c' "}" then Some (PyDict ∅, l2)
                else members fuel l1 ∅
            | [] => None
            end
          else if Ascii.eqb c dquote then
            '(s, rest) ← str l1 []; Some (PyStr s, rest)
          else if Ascii.eqb c "n" then
            rest ← expect (list_ascii_of_string "ull") l1; Some (PyNone, rest)
          else if Ascii.eqb c "t" then
            rest ← expect (list_ascii_of_string "rue") l1; Some (PyBool true, rest)
          else if Ascii.eqb c "f" then
            rest ← expect (list_ascii_of_string "alse") l1; Some (PyBool false, rest)
          else if Ascii.eqb c "-" then
            '(n, rest) ← natural l1; Some (PyInt (- n), rest)
          else
            '(n, rest) ← natural (c :: l1); Some (PyInt n, rest)
      end
  end
with elements (fuel : nat) (l : list ascii) (acc : list pyobj)
    : option (pyobj * list ascii) :=
  match fuel with
  | O => None
  | S fuel =>
      '(v, l1) ← value fuel l;
      match skip_ws l1 with
      | c :: l2 =>
          if Ascii.eqb c "," then elements fuel l2 (v :: acc)
          else if Ascii.eqb c "]" then Some (PyList (reverse (v :: acc)), l2)
          else None
      | [] => None
      end
  end
with members (fuel : nat) (l : list ascii) (acc : gmap string pyobj)
    : option (pyobj * list ascii) :=
  match fuel with
  | O => None
  | S fuel =>
      match skip_ws l with
      | c :: l1 =>
          if Ascii.eqb c dquote then
            '(k, l2) ← str l1 [];
            match skip_ws l2 with
            | c' :: l3 =>
                if Ascii.eqb c' ":" then
                  '(v, l4) ← value fuel l3;
                  match skip_ws l4 with
                  | c'' :: l5 =>
                      if Ascii.eqb c'' "," then members fuel l5 (<[k:=v]> acc)
                      else if Ascii.eqb c'' "}" then Some (PyDict (<[k:=v]> acc), l5)
                      else None
                  | [] => None
                  end
                else None
            | [] => None
            end
          else None
      | [] => None
      end
  end.

(** A JSON decoder for documents without floats and [\u] escapes: one
    value, nothing but white space after it; of a key that comes twice
    the last value stays, as in Python. *)
Definition json_loads (body : string) : option pyobj :=
  let l := list_ascii_of_string body in
  '(v, rest) ← value (2 * length l + 2) l;
  match skip_ws rest with
  | [] => Some v
  | _ :: _ => None
  end.

(** A cast to [datetime64]: [None] is not-a-time, a str is read as a UTC
    instant in the API's format, nothing else is a timestamp. *)
Definition to_datetime64 (o : pyobj) : option datetime64 :=
  match o with
  | PyNone => Some NaT
  | PyStr s => Stamp <$> ISO8601.utc_stamp s
  | _ => None
  end.

(** JSON text is written here with ['] where the document has the double
    quote. *)
Definition json_text (s : string) : string :=
  string_of_list_ascii
    ((λ c, if Ascii.eqb c "'" then dquote else c) <$> list_ascii_of_string s).

End Reference.


(** ** Sample environments *)

Module Sample.

(** A fresh world in which the network answers the [n]-th request with
    the [n]-th of the given responses, and is unreachable after them. *)
Definition serving (answers : list Response) : world :=
  {| network := λ n _, match answers !! n with
                       | Some r => Responds r
                       | None => Unreachable
                       end;
     sent := []; stdout := []; files := ∅ |}.

Definition ok (body : string) : Response :=
  {| status_code := 200; text := Reference.json_text body |}.

Definition commit (date : string) : pyobj :=
  PyDict {[ "commit" := PyDict {[ "author" := PyDict {[ "date" := PyStr date ]} ]} ]}.

Definition two_commits : Response :=
  ok "[{'sha': 'c0ffee', 'commit': {'author': {'name': 'a', 'date': '2023-01-15T10:30:00Z'}}},
       {'sha': 'decade', 'commit': {'author': {'name': 'b', 'date': '2023-01-14T08:00:05Z'}}}]".


(** The same body under another status code. *)
Definition with_status (status : Z) (r : Response) : Response :=
  {| status_code := status; text := text r |}.

Definition missing_commit : Response :=
  ok "[{'commit': {'author': {'date': '2023-01-15T10:30:00Z'}}}, {'sha': 'c0ffee'}]".



Definition bad_date_then_no_commit : Response :=
  ok "[{'commit': {'author': {'date': 'not-a-date'}}}, {}]".


Definition two_records : list pyobj :=
  [ PyDict {[ "sha" := PyStr "c0ffee";
              "commit" := PyDict {[ "author" :=
                PyDict {[ "name" := PyStr "a"; "date" := PyStr "2023-01-15T10:30:00Z" ]} ]} ]};
    PyDict {[ "sha" := PyStr "decade";
              "commit" := PyDict {[ "author" :=
                PyDict {[ "name" := PyStr "b"; "date" := PyStr "2023-01-14T08:00:05Z" ]} ]} ]} ].


Definition two_times : Series datetime64 :=
  {| index := [0%nat; 1%nat];
     values := [Stamp 1673778600000000000; Stamp 1673683205000000000] |}.

(** What the API answers when the rate limit is used up. *)
Definition rate_limited : Response :=
  {| status_code := 403;
     text := Reference.json_text
       "{'message': 'API rate limit exceeded', 'documentation_url': 'https://docs.github.com'}" |}.


Definition two_bare_commits : Response :=
  ok "[{'commit': {'author': {'date': '2023-01-15T10:30:00Z'}}},
       {'commit': {'author': {'date': '2023-01-14T08:00:05Z'}}}]".

Definition two_bare_records : list pyobj :=
  [commit "2023-01-15T10:30:00Z"; commit "2023-01-14T08:00:05Z"].

End Sample.

(** * Properties *)

(** ** The list comprehension *)

Section MapM.

Context {A B : Type} (f : A → result B).

Lemma mapM_cons_Ok (x : A) (l : list A) (y : B) (k : list B) :
  f x = Ok y → mapM f l = Ok k → mapM f (x :: l) = Ok (y :: k).
Proof. intros Hx Hl. cbn. rewrite Hx. cbn. rewrite Hl. reflexivity. Qed.

Lemma mapM_cons_Raise_head (x : A) (l : list A) (e : exception) :
  f x = Raise e → mapM f (x :: l) = Raise e.
Proof. intros Hx. cbn. rewrite Hx. reflexivity. Qed.

Lemma mapM_cons_Raise_tail (x : A) (l : list A) (y : B) (e : exception) :
  f x = Ok y → mapM f l = Raise e → mapM f (x :: l) = Raise e.
Proof. intros Hx Hl. cbn. rewrite Hx. cbn. rewrite Hl. reflexivity. Qed.

(** It succeeds exactly when every item does, and then gives the results
    item by item. *)
Lemma mapM_Ok_Forall2 (l : list A) (k : list B) :
  mapM f l = Ok k ↔ Forall2 (λ x y, f x = Ok y) l k.
Proof.
  revert k. induction l as [|x l IH]; intros k.
  - cbn. split.
    + intros [= <-]. constructor.
    + intros H. inversion H. reflexivity.
  - split.
    + cbn. destruct (f x) as [y|e] eqn:Hx; cbn; [|discriminate].
      destruct (mapM f l) as [k'|e] eqn:Hl; cbn; [|discriminate].
      intros [= <-]. constructor; [exact Hx|]. apply IH. reflexivity.
    + intros H. inversion H as [|? y ? k' Hx Hl]; subst.
      apply mapM_cons_Ok; [exact Hx|]. apply IH. exact Hl.
Qed.

(** It raises as soon as one item does, and what it raises then is what
    some item raises. *)
Lemma mapM_Exists_Raise (l : list A) :
  Exists (λ x, ∃ e, f x = Raise e) l →
  ∃ e, mapM f l = Raise e ∧ Exists (λ x, f x = Raise e) l.
Proof.
  induction l as [|x l IH]; intros H; [inversion H|].
  destruct (f x) as [y|e] eqn:Hx.
  - inversion H as [? ? [e He]|? ? Hl]; subst; [congruence|].
    destruct (IH Hl) as (e & He & Hin).
    exists e. split; [eapply mapM_cons_Raise_tail; eassumption|].
    apply Exists_cons_tl. exact Hin.
  - exists e. split; [apply mapM_cons_Raise_head; exact Hx|].
    apply Exists_cons_hd. exact Hx.
Qed.

End MapM.

(** ** Subscripts and the path *)

Lemma getitem_Ok (o : pyobj) (key : string) (v : pyobj) :
  getitem o key = Ok v ↔ ∃ d, dict_of o = Some d ∧ d !! key = Some v.
Proof.
  destruct o; cbn; try (split; [discriminate | intros (? & [=] & _)]).
  destruct (d !! key) as [v'|] eqn:Hk; split.
  - intros [= <-]. eauto.
  - intros (d' & [= <-] & Hv). congruence.
  - discriminate.
  - intros (d' & [= <-] & Hv). congruence.
Qed.

Lemma getitem_Raise (o : pyobj) (key : string) (e : exception) :
  getitem o key = Raise e → failure_of e = SchemaError.
Proof.
  destruct o; cbn; try (intros [= <-]; reflexivity).
  destruct (d !! key); [discriminate|]. intros [= <-]. reflexivity.
Qed.

(** The three subscripts reach exactly the value at the path. *)
Lemma commit_date_Ok (c v : pyobj) :
  commit_date c = Ok v ↔ at_path c = Some v.
Proof.
  unfold commit_date, at_path. split.
  - destruct (getitem c "commit") as [x|] eqn:H1; cbn; [|discriminate].
    destruct (getitem x "author") as [y|] eqn:H2; cbn; [|discriminate].
    intros H3.
    apply getitem_Ok in H1 as (d & Hd & Hx).
    apply getitem_Ok in H2 as (d1 & Hd1 & Hy).
    apply getitem_Ok in H3 as (d2 & Hd2 & Hv).
    rewrite Hd. cbn. rewrite Hx. cbn. rewrite Hd1. cbn. rewrite Hy. cbn.
    rewrite Hd2. cbn. exact Hv.
  - destruct (dict_of c) as [d|] eqn:H0; cbn; [|discriminate].
    destruct (d !! "commit") as [x|] eqn:H1; cbn; [|discriminate].
    destruct (dict_of x) as [d1|] eqn:H2; cbn; [|discriminate].
    destruct (d1 !! "author") as [y|] eqn:H3; cbn; [|discriminate].
    destruct (dict_of y) as [d2|] eqn:H4; cbn; [|discriminate].
    intros H5.
    assert (getitem c "commit" = Ok x) as -> by (apply getitem_Ok; eauto).
    cbn. assert (getitem x "author" = Ok y) as -> by (apply getitem_Ok; eauto).
    cbn. apply getitem_Ok; eauto.
Qed.

(** Whatever they raise is a schema failure. *)
Lemma commit_date_Raise (c : pyobj) (e : exception) :
  commit_date c = Raise e → failure_of e = SchemaError.
Proof.
  unfold commit_date.
  destruct (getitem c "commit") as [x|e1] eqn:H1; cbn.
  - destruct (getitem x "author") as [y|e2] eqn:H2; cbn.
    + apply getitem_Raise.
    + intros [= <-]. eapply getitem_Raise, H2.
  - intros [= <-]. eapply getitem_Raise, H1.
Qed.

Lemma commit_date_None (c : pyobj) :
  at_path c = None → ∃ e, commit_date c = Raise e ∧ failure_of e = SchemaError.
Proof.
  intros Hn. destruct (commit_date c) as [v|e] eqn:Hc.
  - apply commit_date_Ok in Hc. congruence.
  - exists e. split; [reflexivity|]. eapply commit_date_Raise, Hc.
Qed.

(** ** One call *)

Section Call.

Variable json_loads : string → option pyobj.
Variable to_datetime64 : pyobj → option datetime64.

(** A call appends its request to those sent and changes nothing else. *)
Lemma after_eq (w : world) :
  after json_loads to_datetime64 w =
    {| network := network w;
       sent := sent w ++ [get_request _COMMITS_URL];
       stdout := stdout w; files := files w |}.
Proof.
  unfold after, load_commit_times, mbind, M_bind, requests_get.
  destruct (network w _ _); [reflexivity|].
  unfold lift. cbn.
  destruct (Response_json json_loads r); [|reflexivity].
  destruct (comprehension commit_date a); reflexivity.
Qed.

(** A call returns what the network's answer to its request determines. *)
Lemma returned_eq (w : world) :
  returned json_loads to_datetime64 w =
    match api_response w with
    | Unreachable => Raise RequestException
    | Responds r => times_of json_loads to_datetime64 r
    end.
Proof.
  unfold returned, api_response, load_commit_times, mbind, M_bind, requests_get.
  destruct (network w _ _); [reflexivity|].
  unfold times_of, lift. cbn.
  destruct (Response_json json_loads r); [|reflexivity]. cbn.
  destruct (comprehension commit_date a); reflexivity.
Qed.

Lemma times_of_list (r : Response) (cs : list pyobj) :
  json_loads (text r) = Some (PyList cs) →
  times_of json_loads to_datetime64 r = (times ← mapM commit_date cs;
                vs ← mapM (cast to_datetime64) times;
                mret {| index := seq 0 (length times); values := vs |}).
Proof.
  intros Hj. unfold times_of, Response_json. rewrite Hj. reflexivity.
Qed.

End Call.

(** ** Timestamps and their text *)

Section RoundTrip.

Import ISO8601.
#[local] Open Scope Z_scope.












End RoundTrip.

(** ** The claims *)

Section WellFormed.

Variable to_datetime64 : pyobj → option datetime64.


End WellFormed.




Section Returned.

Variable json_loads : string → option pyobj.
Variable to_datetime64 : pyobj → option datetime64.



End Returned.




(** C3.  When some record of the response list has no value at the path
    commit.author.date (it lacks the commit key, or the author or the date
    key below it), the call raises, and what it raises is a schema failure:
    no series is returned, of whatever length. *)
Theorem load_commit_times_missing_key
    (json_loads : string → option pyobj)
    (to_datetime64 : pyobj → option datetime64)
    (w : world) (r : Response) (cs : list pyobj) :
  api_response w = Responds r →
  json_loads (text r) = Some (PyList cs) →
  Exists (λ c, at_path c = None) cs →
  ∃ e, returned json_loads to_datetime64 w = Raise e
       ∧ failure_of e = SchemaError.
Proof.
  intros Hw Hj Hex.
  destruct (mapM_Exists_Raise commit_date cs) as (e & He & Hin).
  { eapply Exists_impl; [exact Hex|]. intros c Hc.
    destruct (commit_date_None c Hc) as (e & He & _). eauto. }
  exists e. split.
  - rewrite returned_eq, Hw, (times_of_list _ _ _ _ Hj), He. reflexivity.
  - apply Exists_exists in Hin as (c & _ & Hc). eapply commit_date_Raise, Hc.
Qed.

Lemma load_commit_times_missing_key_witness :
  returned Reference.json_loads Reference.to_datetime64
    (Sample.serving [Sample.missing_commit]) = Raise (KeyError "commit")
  ∧ ∃ e, returned Reference.json_loads Reference.to_datetime64
           (Sample.serving [Sample.missing_commit]) = Raise e
         ∧ failure_of e = SchemaError.
Proof.
  split; [vm_compute; reflexivity|].
  eapply (load_commit_times_missing_key
            Reference.json_loads Reference.to_datetime64
            (Sample.serving [Sample.missing_commit]) Sample.missing_commit).
  - reflexivity.
  - vm_compute. reflexivity.
  - apply Exists_cons_tl, Exists_cons_hd. vm_compute. reflexivity.
Defined.

(** C4.  The status code of the response plays no part: two calls that are
    answered with the same body return the same, whatever the two status
    codes are; and when that body is not JSON, what they raise is the
    decoder's exception. *)
Theorem load_commit_times_ignores_status
    (json_loads : string → option pyobj)
    (to_datetime64 : pyobj → option datetime64)
    (w1 w2 : world) (r1 r2 : Response) :
  api_response w1 = Responds r1 →
  api_response w2 = Responds r2 →
  text r1 = text r2 →
  returned json_loads to_datetime64 w1 = returned json_loads to_datetime64 w2
  ∧ (json_loads (text r1) = None →
     returned json_loads to_datetime64 w2 = Raise JSONDecodeError).
Proof.
  intros H1 H2 Ht. rewrite !returned_eq, H1, H2.
  unfold times_of, Response_json. rewrite <- Ht. split; [reflexivity|].
  intros ->. reflexivity.
Qed.

Lemma load_commit_times_ignores_status_witness :
  status_code Sample.two_commits = 200
  ∧ status_code (Sample.with_status 404 Sample.two_commits) = 404
  ∧ returned Reference.json_loads Reference.to_datetime64
      (Sample.serving [Sample.two_commits])
    = returned Reference.json_loads Reference.to_datetime64
        (Sample.serving [Sample.with_status 404 Sample.two_commits]).
Proof.
  split; [reflexivity|]. split; [reflexivity|].
  apply (load_commit_times_ignores_status
           Reference.json_loads Reference.to_datetime64
           (Sample.serving [Sample.two_commits])
           (Sample.serving [Sample.with_status 404 Sample.two_commits])
           Sample.two_commits (Sample.with_status 404 Sample.two_commits));
    reflexivity.
Defined.








(** C8.  A call sends exactly one request, a GET for the constant URL with
    no parameters, headers or body, whatever comes back; it leaves standard
    output and the files as they were.  A second call sends a second request
    of the same kind, and what it returns is made of the network's answer to
    that second request: nothing is kept from the first. *)
Theorem load_commit_times_one_request
    (json_loads : string → option pyobj)
    (to_datetime64 : pyobj → option datetime64)
    (w : world) :
  sent (after json_loads to_datetime64 w)
    = (sent w ++ [{| method := GET;
                     url := "https://api.github.com/repos/mutagen-io/mutagen/commits";
                     params := []; headers := []; data := None |}])%list
  ∧ stdout (after json_loads to_datetime64 w) = stdout w
  ∧ files (after json_loads to_datetime64 w) = files w
  ∧ network (after json_loads to_datetime64 w) = network w
  ∧ length (sent (after json_loads to_datetime64
                    (after json_loads to_datetime64 w)))
    = S (S (length (sent w)))
  ∧ returned json_loads to_datetime64 (after json_loads to_datetime64 w)
    = match network w (S (length (sent w))) (get_request _COMMITS_URL) with
      | Unreachable => Raise RequestException
      | Responds r => times_of json_loads to_datetime64 r
      end.
Proof.
  rewrite returned_eq. unfold api_response. rewrite !after_eq. cbn.
  rewrite !length_app. cbn.
  replace (length (sent w) + 1)%nat with (S (length (sent w))) by lia.
  repeat split. lia.
Qed.





(** * Further properties of the loader *)

Section MapMRaise.

Context {A B : Type} (f : A → result B).

(** What the comprehension raises, some item raises. *)
Lemma mapM_Raise_Exists (l : list A) (e : exception) :
  mapM f l = Raise e → Exists (λ x, f x = Raise e) l.
Proof.
  induction l as [|x l IH]; [discriminate|].
  cbn. destruct (f x) as [y|e'] eqn:Hx; cbn.
  - destruct (mapM f l) as [k|e'] eqn:Hl; cbn; [discriminate|].
    intros [= <-]. apply Exists_cons_tl, IH. reflexivity.
  - intros [= <-]. apply Exists_cons_hd. exact Hx.
Qed.

(** Items that succeed before the first one that raises do not change
    what is raised. *)
Lemma mapM_app_Raise (good rest : list A) (x : A) (e : exception) :
  Forall (λ y, ∃ b, f y = Ok b) good →
  f x = Raise e →
  mapM f (good ++ x :: rest) = Raise e.
Proof.
  intros Hgood Hx. induction Hgood as [|y good [b Hy] _ IH].
  - apply mapM_cons_Raise_head. exact Hx.
  - cbn [app]. eapply mapM_cons_Raise_tail; eassumption.
Qed.

End MapMRaise.

Lemma getitem_KeyError (o : pyobj) (key k : string) :
  getitem o key = Raise (KeyError k) → k = key.
Proof.
  destruct o; cbn; try discriminate.
  destruct (d !! key); [discriminate|]. intros [= <-]. reflexivity.
Qed.

Lemma commit_date_KeyError (c : pyobj) (k : string) :
  commit_date c = Raise (KeyError k) →
  k = "commit" ∨ k = "author" ∨ k = "date".
Proof.
  unfold commit_date.
  destruct (getitem c "commit") as [x|e1] eqn:H1; cbn.
  - destruct (getitem x "author") as [y|e2] eqn:H2; cbn.
    + intros H3. apply getitem_KeyError in H3. auto.
    + intros [= ->]. apply getitem_KeyError in H2. auto.
  - intros [= ->]. apply getitem_KeyError in H1. auto.
Qed.

Section Bodies.

Variable json_loads : string → option pyobj.
Variable to_datetime64 : pyobj → option datetime64.

(** What a call makes of a body that decodes to [o]. *)
Lemma returned_decoded (w : world) (r : Response) (o : pyobj) :
  api_response w = Responds r →
  json_loads (text r) = Some o →
  returned json_loads to_datetime64 w
  = (times ← comprehension commit_date o;
     astype_datetime64 to_datetime64 (pd_Series times)).
Proof.
  intros Hw Hj. rewrite returned_eq, Hw. unfold times_of, Response_json.
  rewrite Hj. reflexivity.
Qed.

(** The comprehension raises [TypeError] on every value that is not a list
    and has an item, or cannot be iterated. *)
Lemma comprehension_non_list (o : pyobj) :
  (∀ l, o ≠ PyList l) → o ≠ PyDict ∅ → o ≠ PyStr "" →
  comprehension commit_date o = Raise TypeError.
Proof.
  intros Hl Hd Hs. unfold comprehension.
  destruct o as [| | | |s|l|d]; try reflexivity.
  - destruct s as [|a s]; [congruence|]. reflexivity.
  - destruct (Hl l eq_refl).
  - cbn. destruct (map_to_list d) as [|[k v] kvs] eqn:E.
    + apply map_to_list_empty_iff in E. congruence.
    + reflexivity.
Qed.

End Bodies.

(** X1.  When no response is obtained, the call raises the exception of
    [requests], a network failure, having sent its one request: nothing is
    tried again and nothing is decoded. *)
Theorem load_commit_times_unreachable
    (json_loads : string → option pyobj)
    (to_datetime64 : pyobj → option datetime64)
    (w : world) :
  api_response w = Unreachable →
  returned json_loads to_datetime64 w = Raise RequestException
  ∧ failure_of RequestException = NetworkError
  ∧ length (sent (after json_loads to_datetime64 w)) = S (length (sent w)).
Proof.
  intros Hw. rewrite returned_eq, Hw, after_eq. cbn.
  rewrite length_app. cbn. repeat split. lia.
Qed.

Lemma load_commit_times_unreachable_witness :
  returned Reference.json_loads Reference.to_datetime64 (Sample.serving [])
    = Raise RequestException
  ∧ failure_of RequestException = NetworkError
  ∧ length (sent (after Reference.json_loads Reference.to_datetime64
                    (Sample.serving []))) = 1%nat.
Proof.
  apply (load_commit_times_unreachable
           Reference.json_loads Reference.to_datetime64 (Sample.serving [])).
  reflexivity.
Defined.

(** X2.  When the body decodes to a JSON value that is not a list, and is
    neither the empty object nor the empty string, the call raises
    [TypeError], a schema failure: a number, a boolean or null cannot be
    iterated, and the items of an object or of a string are strings, which
    have no subscript ['commit'].  So an error document of the API, an
    object with a message, ends in [TypeError], whatever its status. *)
Theorem load_commit_times_not_a_list
    (json_loads : string → option pyobj)
    (to_datetime64 : pyobj → option datetime64)
    (w : world) (r : Response) (o : pyobj) :
  api_response w = Responds r →
  json_loads (text r) = Some o →
  (∀ l, o ≠ PyList l) → o ≠ PyDict ∅ → o ≠ PyStr "" →
  returned json_loads to_datetime64 w = Raise TypeError
  ∧ failure_of TypeError = SchemaError.
Proof.
  intros Hw Hj Hl Hd Hs.
  rewrite (returned_decoded _ _ _ _ _ Hw Hj).
  rewrite (comprehension_non_list o Hl Hd Hs). split; reflexivity.
Qed.

Lemma load_commit_times_not_a_list_witness :
  status_code Sample.rate_limited = 403
  ∧ returned Reference.json_loads Reference.to_datetime64
      (Sample.serving [Sample.rate_limited]) = Raise TypeError
  ∧ failure_of TypeError = SchemaError.
Proof.
  split; [reflexivity|].
  eapply (load_commit_times_not_a_list
            Reference.json_loads Reference.to_datetime64
            (Sample.serving [Sample.rate_limited]) Sample.rate_limited).
  - reflexivity.
  - vm_compute. reflexivity.
  - intros l. discriminate.
  - intros H. vm_compute in H. discriminate H.
  - discriminate.
Defined.



Section Records.

Variable to_datetime64 : pyobj → option datetime64.


(** The cast raises nothing but [ParserError]. *)
Lemma cast_Raise (o : pyobj) (e : exception) :
  cast to_datetime64 o = Raise e → e = ParserError.
Proof. unfold cast. destruct (to_datetime64 o); [discriminate|]. congruence. Qed.

End Records.

(** Iteration raises nothing but [TypeError]. *)
Lemma iter_Raise (o : pyobj) (e : exception) : iter o = Raise e → e = TypeError.
Proof. destruct o; cbn; congruence. Qed.



(** X5.  On a response list, the call raises what the subscripts raise on
    the first record that has no value at the path, a schema failure, also
    when the date of a record before it is not a timestamp: all the
    subscripts are taken before any date is cast. *)
Theorem load_commit_times_first_failure
    (json_loads : string → option pyobj)
    (to_datetime64 : pyobj → option datetime64)
    (w : world) (r : Response) (good rest : list pyobj) (c : pyobj)
    (e : exception) :
  api_response w = Responds r →
  json_loads (text r) = Some (PyList (good ++ c :: rest)) →
  Forall (λ g, is_Some (at_path g)) good →
  commit_date c = Raise e →
  returned json_loads to_datetime64 w = Raise e
  ∧ failure_of e = SchemaError.
Proof.
  intros Hw Hj Hgood Hc. split; [|eapply commit_date_Raise, Hc].
  rewrite returned_eq, Hw, (times_of_list _ _ _ _ Hj).
  rewrite (mapM_app_Raise commit_date good rest c e); [reflexivity| |exact Hc].
  eapply Forall_impl; [exact Hgood|]. intros g [d Hd].
  exists d. apply commit_date_Ok. exact Hd.
Qed.

Lemma load_commit_times_first_failure_witness :
  Reference.to_datetime64 (PyStr "not-a-date") = None
  ∧ returned Reference.json_loads Reference.to_datetime64
      (Sample.serving [Sample.bad_date_then_no_commit]) = Raise (KeyError "commit")
  ∧ failure_of (KeyError "commit") = SchemaError.
Proof.
  split; [reflexivity|].
  apply (load_commit_times_first_failure
           Reference.json_loads Reference.to_datetime64
           (Sample.serving [Sample.bad_date_then_no_commit])
           Sample.bad_date_then_no_commit
           [Sample.commit "not-a-date"] [] (PyDict ∅)).
  - reflexivity.
  - vm_compute. reflexivity.
  - repeat constructor. vm_compute. eauto.
  - reflexivity.
Defined.

(** X6.  Whatever the response, a [KeyError] that the call raises names one
    of the three keys commit, author and date: no other key is ever looked
    up. *)
Theorem load_commit_times_KeyError
    (json_loads : string → option pyobj)
    (to_datetime64 : pyobj → option datetime64)
    (w : world) (k : string) :
  returned json_loads to_datetime64 w = Raise (KeyError k) →
  k = "commit" ∨ k = "author" ∨ k = "date".
Proof.
  rewrite returned_eq. destruct (api_response w) as [|r]; [discriminate|].
  unfold times_of, Response_json.
  destruct (json_loads (text r)) as [o|]; [|discriminate]. cbn.
  unfold comprehension.
  destruct (iter o) as [items|e] eqn:Hi; cbn.
  - destruct (mapM commit_date items) as [ds|e] eqn:Hds; cbn.
    + unfold astype_datetime64. cbn.
      destruct (mapM (cast to_datetime64) ds) as [ts|e] eqn:Hts; cbn;
        [discriminate|].
      intros [= ->]. apply mapM_Raise_Exists, Exists_exists in Hts as (d & _ & Hd).
      apply cast_Raise in Hd. discriminate.
    + intros [= ->]. apply mapM_Raise_Exists, Exists_exists in Hds as (c & _ & Hc).
      eapply commit_date_KeyError, Hc.
  - intros [= ->]. apply iter_Raise in Hi. discriminate.
Qed.

Lemma load_commit_times_KeyError_witness :
  returned Reference.json_loads Reference.to_datetime64
    (Sample.serving [Sample.missing_commit]) = Raise (KeyError "commit")
  ∧ ("commit" = "commit" ∨ "commit" = "author" ∨ "commit" = "date").
Proof.
  assert (returned Reference.json_loads Reference.to_datetime64
            (Sample.serving [Sample.missing_commit]) = Raise (KeyError "commit"))
    as Hr by (vm_compute; reflexivity).
  split; [exact Hr|].
  apply (load_commit_times_KeyError
           Reference.json_loads Reference.to_datetime64
           (Sample.serving [Sample.missing_commit]) "commit" Hr).
Defined.

(** Records with the same values at the path give the comprehension the
    same dates. *)
Lemma same_dates (cs1 cs2 : list pyobj) :
  Forall2 (λ c1 c2, is_Some (at_path c1) ∧ at_path c1 = at_path c2) cs1 cs2 →
  ∃ ds, mapM commit_date cs1 = Ok ds ∧ mapM commit_date cs2 = Ok ds.
Proof.
  induction 1 as [|c1 c2 cs1 cs2 [[d Hd] Heq] _ (ds & H1 & H2)].
  - exists []. split; reflexivity.
  - exists (d :: ds). split.
    + apply mapM_cons_Ok; [|exact H1]. apply commit_date_Ok. exact Hd.
    + apply mapM_cons_Ok; [|exact H2]. apply commit_date_Ok. congruence.
Qed.

(** X7.  Of the records of a response list only the values at the path
    commit.author.date are read: two response lists whose records have the
    same values there, record by record, give the same result, whatever else
    the records hold. *)
Theorem load_commit_times_reads_dates_only
    (json_loads : string → option pyobj)
    (to_datetime64 : pyobj → option datetime64)
    (w1 w2 : world) (r1 r2 : Response) (cs1 cs2 : list pyobj) :
  api_response w1 = Responds r1 →
  api_response w2 = Responds r2 →
  json_loads (text r1) = Some (PyList cs1) →
  json_loads (text r2) = Some (PyList cs2) →
  Forall2 (λ c1 c2, is_Some (at_path c1) ∧ at_path c1 = at_path c2) cs1 cs2 →
  returned json_loads to_datetime64 w1 = returned json_loads to_datetime64 w2.
Proof.
  intros Hw1 Hw2 Hj1 Hj2 Hall.
  rewrite !returned_eq, Hw1, Hw2.
  rewrite (times_of_list _ _ _ _ Hj1), (times_of_list _ _ _ _ Hj2).
  destruct (same_dates cs1 cs2 Hall) as (ds & -> & ->). reflexivity.
Qed.

Lemma load_commit_times_reads_dates_only_witness :
  text Sample.two_commits ≠ text Sample.two_bare_commits
  ∧ returned Reference.json_loads Reference.to_datetime64
      (Sample.serving [Sample.two_commits])
    = returned Reference.json_loads Reference.to_datetime64
        (Sample.serving [Sample.two_bare_commits]).
Proof.
  split; [discriminate|].
  apply (load_commit_times_reads_dates_only
           Reference.json_loads Reference.to_datetime64
           (Sample.serving [Sample.two_commits])
           (Sample.serving [Sample.two_bare_commits])
           Sample.two_commits Sample.two_bare_commits
           Sample.two_records Sample.two_bare_records).
  - reflexivity.
  - reflexivity.
  - vm_compute. reflexivity.
  - vm_compute. reflexivity.
  - repeat constructor; vm_compute; eauto.
Defined.

(** X8.  After any number n of calls, whatever they returned or raised, the
    requests sent are those sent before followed by n copies of the one GET
    request for the constant URL, and the network, standard output and the
    files are as they were. *)
Theorem load_commit_times_n_calls
    (json_loads : string → option pyobj)
    (to_datetime64 : pyobj → option datetime64)
    (n : nat) (w : world) :
  sent (Nat.iter n (after json_loads to_datetime64) w)
    = (sent w ++ replicate n (get_request _COMMITS_URL))%list
  ∧ network (Nat.iter n (after json_loads to_datetime64) w) = network w
  ∧ stdout (Nat.iter n (after json_loads to_datetime64) w) = stdout w
  ∧ files (Nat.iter n (after json_loads to_datetime64) w) = files w.
Proof.
  induction n as [|n (Hs & Hn & Ho & Hf)].
  - cbn. rewrite app_nil_r. repeat split.
  - rewrite !Nat.iter_succ, !after_eq. cbn [sent network stdout files].
    rewrite Hs, replicate_S_end, app_assoc. repeat split; assumption.
Qed.

(** X9.  Whatever the response, a series that the call returns is indexed
    by the positions of its own values: the index is 0, 1, ..., one entry
    per value. *)
Theorem load_commit_times_index
    (json_loads : string → option pyobj)
    (to_datetime64 : pyobj → option datetime64)
    (w : world) (s : Series datetime64) :
  returned json_loads to_datetime64 w = Ok s →
  index s = seq 0 (length (values s)).
Proof.
  rewrite returned_eq. destruct (api_response w) as [|r]; [discriminate|].
  unfold times_of.
  destruct (Response_json json_loads r) as [o|]; [|discriminate]. cbn.
  destruct (comprehension commit_date o) as [times|]; [|discriminate]. cbn.
  unfold astype_datetime64. cbn.
  destruct (mapM (cast to_datetime64) times) as [ts|] eqn:Hts; [|discriminate].
  cbn. intros [= <-]. cbn.
  apply mapM_Ok_Forall2, Forall2_length in Hts. rewrite Hts. reflexivity.
Qed.

Lemma load_commit_times_index_witness :
  index Sample.two_times = seq 0 (length (values Sample.two_times)).
Proof.
  apply (load_commit_times_index
           Reference.json_loads Reference.to_datetime64
           (Sample.serving [Sample.two_commits]) Sample.two_times).
  vm_compute. reflexivity.
Defined.
